(** * StripeEventsToSns: the construct of src/index.ts, embedded and verified

    The construct is a single constructor.  It validates four required
    properties, then declares an EventBridge rule, adds one statement to the
    resource policy of the SNS topic, and binds the topic to the rule as a
    target whose message is built by a caller-supplied template function.

    The constructor is effectful: it mutates the construct tree it is given
    and may throw.  It is written here in a small state-and-exception monad
    over [World], the construct tree before synthesis.  A throw keeps the
    state reached at the throw site, as in JavaScript: nothing is rolled
    back. *)

From stdpp Require Import base list strings pretty.
From Stdlib Require Import Ascii.

Local Open Scope string_scope.
Local Open Scope list_scope.

(** ** The part of aws-cdk-lib the construct talks to *)

Module Cdk.

(** A construct node is named by the ids from the root down to it. *)
Definition Path := list string.

Record IEventBus := { eventBusName : string }.

(** ARNs are deploy-time tokens: a reference to the resource they name. *)
Inductive Arn :=
| ArnOfTopic (name : string)
| ArnOfRule (node : Path).

(** A topic is a construct at [topic_node].  One that the application
    declares ([new sns.Topic]) owns its resource policy; one that is only
    referred to ([sns.Topic.fromTopicArn]) is [imported] and has none to
    add to. *)
Record ITopic := {
  topicName : string;
  topic_node : Path;
  imported : bool
}.

#[export] Instance ITopic_eq_dec : EqDecision ITopic.
Proof. solve_decision. Defined.

Definition topicArn (t : ITopic) : Arn := ArnOfTopic (topicName t).

(** *** events.EventField and the values a template builds *)

(** A string built by a template is a run of literal text and of tokens
    [EventField.fromPath p], each standing for the value found at JSON path
    [p] of the event delivered later. *)
Inductive Fragment :=
| Lit (text : string)
| FieldToken (path : string).

#[local] Set Warnings "-register-all".

(** What a template may return: its type is [any].  A number is the
    decimal [mantissa] times ten to the [exponent]; a member may be
    [undefined]; a function stands for the values that are not data. *)
Inductive Value :=
| VUndefined
| VNull
| VBool (b : bool)
| VNum (mantissa exponent : Z)
| VStr (s : list Fragment)
| VArr (items : list Value)
| VObj (members : list (string * Value))
| VFunction.

Record EventFieldT := { fromPath : string -> Fragment }.

Definition EventField : EventFieldT := {| fromPath := FieldToken |}.

(** *** events.RuleTargetInput *)

Inductive RuleTargetInput :=
| fromObject (obj : Value).

(** The serialized form of a structure: the transport string, kept as the
    JSON tree it spells (how the engine spells a number is not modelled).
    Literals stand as they are and tokens stay tagged. *)
Inductive Json :=
| JNull
| JBool (b : bool)
| JNum (mantissa exponent : Z)
| JStr (s : list Fragment)
| JArr (items : list Json)
| JObj (members : list (string * Json)).

(** What binding an input to a rule comes to: the library throws, or the
    target gets no input of its own, or it gets the serialized structure. *)
Inductive Serialization :=
| Fails
| NoInput
| Template (t : Json).

(** The serializer belongs to aws-cdk-lib and is not part of the
    repository.  The construct is verified against any serializer. *)
Class Library := { serialize : Value -> Serialization }.

(** Modelled from the spec: the serializer of the delivery mechanism, which
    aws-cdk-lib supplies.  A structure of tokens, literals and strings is
    serialized with its literals unchanged and its tokens kept for delivery
    time; members that are [undefined] are left out; a structure that holds
    something that is not data cannot be serialized.  [None] stands for that
    failure, [Some None] for [undefined]. *)
Fixpoint resolve (v : Value) : option (option Json) :=
  match v with
  | VUndefined => Some None
  | VNull => Some (Some JNull)
  | VBool b => Some (Some (JBool b))
  | VNum m e => Some (Some (JNum m e))
  | VStr s => Some (Some (JStr s))
  | VArr items =>
      let fix go (l : list Value) : option (list Json) :=
        match l with
        | [] => Some []
        | x :: xs =>
            match resolve x, go xs with
            | Some (Some j), Some js => Some (j :: js)
            | Some None, Some js => Some js
            | _, _ => None
            end
        end in
      match go items with
      | Some js => Some (Some (JArr js))
      | None => None
      end
  | VObj members =>
      let fix go (l : list (string * Value)) : option (list (string * Json)) :=
        match l with
        | [] => Some []
        | (k, x) :: xs =>
            match resolve x, go xs with
            | Some (Some j), Some js => Some ((k, j) :: js)
            | Some None, Some js => Some js
            | _, _ => None
            end
        end in
      match go members with
      | Some js => Some (Some (JObj js))
      | None => None
      end
  | VFunction => None
  end.

#[export] Instance installed : Library :=
  {| serialize v :=
       match resolve v with
       | Some (Some t) => Template t
       | Some None => NoInput
       | None => Fails
       end |}.

(** *** iam.PolicyStatement *)

Inductive Effect := ALLOW | DENY.

Inductive Principal :=
| ServicePrincipal (service : string)
| AccountPrincipal (accountId : string)
| AnyPrincipal.

Record PolicyStatement := {
  effect : Effect;
  principals : list Principal;
  actions : list string;
  resources : list Arn;
  (** operator, then the keys it constrains with their required value *)
  conditions : list (string * list (string * Arn))
}.

(** *** events.Rule *)

(** One entry of the [source] array of an event pattern: a plain string
    matches exactly, an object [{ prefix: s }] matches by prefix. *)
Inductive SourceMatcher :=
| exact (s : string)
| prefix (s : string).

(** Both fields of a pattern, and the bus of a rule, are optional in the
    library's interfaces; the construct passes its own properties through
    as they are. *)
Record EventPattern := {
  source : option (list SourceMatcher);
  detailType : option (list string)
}.

Record RuleProps := {
  eventBus : option IEventBus;
  eventPattern : EventPattern;
  description : string
}.

(** targets.SnsTopic(topic, { message }): the target as the construct
    builds it. *)
Record SnsTopic := {
  target_topic : ITopic;
  message : RuleTargetInput
}.

(** A target as a rule holds it once bound: its id, the ARN it delivers
    to, and the serialized message, if any. *)
Record RuleTarget := {
  target_id : string;
  target_arn : Arn;
  target_input : option Json
}.

Record Rule := {
  rule_node : Path;
  rule_props : RuleProps;
  rule_targets : list RuleTarget
}.

Definition ruleArn (r : Rule) : Arn := ArnOfRule (rule_node r).

(** The handle [new events.Rule(...)] evaluates to: the object's position
    in the tree's rule list, and its node. *)
Record RuleRef := {
  ref_index : nat;
  ref_node : Path
}.

Definition ref_ruleArn (r : RuleRef) : Arn := ArnOfRule (ref_node r).

(** The construct tree.  [topic_policies] holds, in order, every statement
    handed to [addToResourcePolicy] of a topic, by the construct or by the
    library on its behalf; what the topic keeps of them is [policy_of].
    [template_calls] logs every invocation of a caller-supplied template,
    with the helper it was given. *)
Record World := {
  nodes : list Path;
  rules : list Rule;
  topic_policies : list (ITopic * PolicyStatement);
  template_calls : list EventFieldT
}.

Definition empty : World :=
  {| nodes := []; rules := []; topic_policies := []; template_calls := [] |}.

(** The statements of the resource policy of a topic.  An imported topic
    keeps none of what it is handed. *)
Definition policy_of (w : World) (topic : ITopic) : list PolicyStatement :=
  if imported topic then []
  else omap (λ ts : ITopic * PolicyStatement,
               if decide (ts.1 = topic) then Some ts.2 else None)
            (topic_policies w).

End Cdk.

Import Cdk.

(** ** Throwing, stateful computations *)

(** What a [throw] carries.  The constructor records the throw site: the
    [Error] built by the validation block, a value thrown by caller code and
    passing through, the engine's [TypeError] on reading a property of
    [undefined], or an [Error] of aws-cdk-lib. *)
Inductive Exn :=
| ValidationError (message : string)
| Thrown (e : string)
| TypeError
| LibraryError.

Inductive Outcome (A : Type) :=
| Return (a : A)
| Throw (e : Exn).

Arguments Return {A} a.
Arguments Throw {A} e.

Definition M (A : Type) : Type := World -> Outcome A * World.

Definition ret {A} (a : A) : M A := fun w => (Return a, w).

Definition throw {A} (e : Exn) : M A := fun w => (Throw e, w).

Definition bind {A B} (m : M A) (k : A -> M B) : M B :=
  fun w =>
    match m w with
    | (Return a, w') => k a w'
    | (Throw e, w') => (Throw e, w')
    end.

Declare Scope js_scope.
Delimit Scope js_scope with js.

Notation "x <- m ;; k" := (bind m (fun x => k))
  (at level 100, m at next level, right associativity) : js_scope.
Notation "m ;;; k" := (bind m (fun _ => k))
  (at level 100, right associativity) : js_scope.

Local Open Scope js_scope.

(** *** The library calls, by their effect on the tree *)

(** [super(scope, id)]: registers the node and gives [this].  This is the
    call for an id the library accepts: one that is not empty, not yet used
    in [scope] and free of the path separator.  The library throws on the
    first two and rewrites the third; neither is modelled. *)
Definition Construct_new (scope : Path) (id : string) : M Path :=
  fun w =>
    let this := scope ++ [id] in
    (Return this,
     {| nodes := nodes w ++ [this];
        rules := rules w;
        topic_policies := topic_policies w;
        template_calls := template_calls w |}).

(** [new events.Rule(scope, id, props)]: registers the rule and, below it,
    the [Resource] that carries it into the template.  This is the call
    for a scope that has a stack above it; without one the library throws,
    which is not modelled. *)
Definition Rule_new (scope : Path) (id : string) (props : RuleProps) : M RuleRef :=
  fun w =>
    let node := scope ++ [id] in
    (Return {| ref_index := length (rules w); ref_node := node |},
     {| nodes := nodes w ++ [node; node ++ ["Resource"]];
        rules := rules w ++ [{| rule_node := node;
                                rule_props := props;
                                rule_targets := [] |}];
        topic_policies := topic_policies w;
        template_calls := template_calls w |}).

(** The nodes a topic gains with its first statement: a topic of the
    application creates its [Policy], with the [Resource] below it, when it
    is first handed a statement; an imported topic never does. *)
Definition policy_nodes (handed : list (ITopic * PolicyStatement))
    (topic : ITopic) : list Path :=
  if negb (imported topic) && bool_decide (topic ∉ handed.*1)
  then [topic_node topic ++ ["Policy"]; topic_node topic ++ ["Policy"; "Resource"]]
  else [].

(** [topic.addToResourcePolicy(statement)] *)
Definition addToResourcePolicy (topic : ITopic) (statement : PolicyStatement) : M unit :=
  fun w =>
    (Return tt,
     {| nodes := nodes w ++ policy_nodes (topic_policies w) topic;
        rules := rules w;
        topic_policies := topic_policies w ++ [(topic, statement)];
        template_calls := template_calls w |}).

(** [topic.grantPublish(grantee)], for a grantee that is a service: the
    grant goes to the resource policy of the topic, without a condition. *)
Definition grantPublish (topic : ITopic) (grantee : Principal) : M unit :=
  addToResourcePolicy topic
    {| effect := ALLOW;
       principals := [grantee];
       actions := ["sns:Publish"];
       resources := [topicArn topic];
       conditions := [] |}.

(** [SnsTopic.bind]: the target lets EventBridge publish to its topic, then
    names the ARN to deliver to and the input to deliver. *)
Definition SnsTopic_bind (target : SnsTopic) : M (Arn * RuleTargetInput) :=
  grantPublish (target_topic target) (ServicePrincipal "events.amazonaws.com") ;;;
  ret (topicArn (target_topic target), message target).

(** [RuleTargetInput.bind]: the input is serialized. *)
Definition RuleTargetInput_bind `{Library} (input : RuleTargetInput) : M (option Json) :=
  match input with
  | fromObject obj =>
      match serialize obj with
      | Fails => throw LibraryError
      | NoInput => ret None
      | Template t => ret (Some t)
      end
  end.

(** [this.targets.push(...)] inside [addTarget]: ids count up from
    [Target0]. *)
Definition push_target (arn : Arn) (input : option Json) (r : Rule) : Rule :=
  {| rule_node := rule_node r;
     rule_props := rule_props r;
     rule_targets := rule_targets r ++
       [{| target_id := "Target" +:+ pretty (length (rule_targets r));
           target_arn := arn;
           target_input := input |}] |}.

(** [rule.addTarget(target)]: binds the target, then its input, then keeps
    the result. *)
Definition addTarget `{Library} (rule : RuleRef) (target : SnsTopic) : M unit :=
  bound <- SnsTopic_bind target ;;
  input <- RuleTargetInput_bind bound.2 ;;
  fun w =>
    (Return tt,
     {| nodes := nodes w;
        rules := alter (push_target bound.1 input) (ref_index rule) (rules w);
        topic_policies := topic_policies w;
        template_calls := template_calls w |}).

(** ** src/index.ts *)

(** A template either returns the structure it built or throws. *)
Definition MessageTemplate := EventFieldT -> string + Value.

(** Calling a template: the call is logged, a thrown value passes through. *)
Definition call (f : MessageTemplate) (eventField : EventFieldT) : M Value :=
  fun w =>
    let w' := {| nodes := nodes w;
                 rules := rules w;
                 topic_policies := topic_policies w;
                 template_calls := template_calls w ++ [eventField] |} in
    match f eventField with
    | inr v => (Return v, w')
    | inl e => (Throw (Thrown e), w')
    end.

(** interface StripeEventsToSnsProps.  The declared types make every field
    mandatory; the constructor nevertheless tests each for presence, and its
    tests pass [undefined], so a field is an option here. *)
Record StripeEventsToSnsProps := {
  props_eventBus : option IEventBus;
  props_topic : option ITopic;
  props_eventTypes : option (list string);
  props_messageTemplate : option MessageTemplate
}.

(** [!x] for a field that is an object, a function or [undefined]. *)
Definition falsy {A} (x : option A) : bool :=
  match x with
  | Some _ => false
  | None => true
  end.

(** [errors.push(x)] *)
Definition push (errors : list string) (x : string) : list string := errors ++ [x].

(** [!props.eventTypes || props.eventTypes.length === 0] *)
Definition eventTypes_missing (eventTypes : option (list string)) : bool :=
  falsy eventTypes ||
  match eventTypes with
  | Some l => (length l =? 0)%nat
  | None => true
  end.

(** Lines 73 to 86: the violations, collected before anything is thrown. *)
Definition collect_errors (props : StripeEventsToSnsProps) : list string :=
  let errors := [] in
  let errors := if falsy (props_eventBus props)
                then push errors "eventBus is required" else errors in
  let errors := if falsy (props_topic props)
                then push errors "topic is required" else errors in
  let errors := if eventTypes_missing (props_eventTypes props)
                then push errors "eventTypes must be a non-empty array" else errors in
  let errors := if falsy (props_messageTemplate props)
                then push errors "messageTemplate is required" else errors in
  errors.

Definition nl : string := String (ascii_of_nat 10) EmptyString.

(** [Array.prototype.join] *)
Fixpoint join (sep : string) (l : list string) : string :=
  match l with
  | [] => ""
  | [x] => x
  | x :: xs => x +:+ sep +:+ join sep xs
  end.

(** The template literal of line 90. *)
Definition validation_message (errors : list string) : string :=
  "StripeEventsToSns validation failed:" +:+ nl +:+ "  - "
    +:+ join (nl +:+ "  - ") errors.

(** [x.f] where [x] may be [undefined]. *)
Definition get {A} (x : option A) : M A :=
  match x with
  | Some a => ret a
  | None => throw TypeError
  end.

(** Lines 73 to 92, the validation block: it throws one [Error] carrying
    every violation, or falls through. *)
Definition validate (props : StripeEventsToSnsProps) : M unit :=
  let errors := collect_errors props in
  if (0 <? length errors)%nat then
    throw (ValidationError (validation_message errors))
  else
    ret tt.

(** The constructor, lines 69 to 176.  It evaluates to [this]. *)
Definition StripeEventsToSns_new `{Library}
    (scope : Path) (id : string) (props : StripeEventsToSnsProps) : M Path :=
  this <- Construct_new scope id ;;
  validate props ;;;
  rule <- Rule_new this "StripeEventRule"
            {| eventBus := props_eventBus props;
               eventPattern :=
                 {| source := Some [prefix "aws.partner/stripe.com"];
                    detailType := props_eventTypes props |};
               description := "Generic rule to relay Stripe events to SNS" |} ;;
  topic <- get (props_topic props) ;;
  addToResourcePolicy topic
    {| effect := ALLOW;
       principals := [ServicePrincipal "events.amazonaws.com"];
       actions := ["sns:Publish"];
       resources := [topicArn topic];
       conditions :=
         [("StringEquals", [("aws:SourceArn", ref_ruleArn rule)])] |} ;;;
  topic <- get (props_topic props) ;;
  messageTemplate <- get (props_messageTemplate props) ;;
  obj <- call messageTemplate EventField ;;
  addTarget rule {| target_topic := topic; message := fromObject obj |} ;;;
  ret this.

(** ** Vocabulary of the specification *)

(** The four required fields, in the order the constructor tests them. *)
Inductive Field := FEventBus | FTopic | FEventTypes | FMessageTemplate.

Definition required_fields : list Field :=
  [FEventBus; FTopic; FEventTypes; FMessageTemplate].

Definition field_name (f : Field) : string :=
  match f with
  | FEventBus => "eventBus"
  | FTopic => "topic"
  | FEventTypes => "eventTypes"
  | FMessageTemplate => "messageTemplate"
  end.

Definition field_message (f : Field) : string :=
  match f with
  | FEventBus => "eventBus is required"
  | FTopic => "topic is required"
  | FEventTypes => "eventTypes must be a non-empty array"
  | FMessageTemplate => "messageTemplate is required"
  end.

(** A field is missing when it is absent; the list of event types also when
    it is present and empty. *)
Definition field_missing (props : StripeEventsToSnsProps) (f : Field) : bool :=
  match f with
  | FEventBus =>
      match props_eventBus props with None => true | Some _ => false end
  | FTopic =>
      match props_topic props with None => true | Some _ => false end
  | FEventTypes =>
      match props_eventTypes props with
      | None | Some [] => true
      | Some (_ :: _) => false
      end
  | FMessageTemplate =>
      match props_messageTemplate props with None => true | Some _ => false end
  end.

Definition missing_count (props : StripeEventsToSnsProps) : nat :=
  length (filter (λ f, field_missing props f = true) required_fields).

(** A valid configuration: the four fields present, the list not empty. *)
Definition valid_props (bus : IEventBus) (topic : ITopic)
    (types : list string) (tmpl : MessageTemplate) : StripeEventsToSnsProps :=
  {| props_eventBus := Some bus;
     props_topic := Some topic;
     props_eventTypes := Some types;
     props_messageTemplate := Some tmpl |}.

(** The lines of a text: the pieces between line feeds. *)
Fixpoint lines (s : string) : list string :=
  match s with
  | EmptyString => [""]
  | String c rest =>
      if Ascii.eqb c (ascii_of_nat 10) then "" :: lines rest
      else match lines rest with
           | l :: ls => String c l :: ls
           | [] => [String c ""]
           end
  end.

Fixpoint no_line_feed (s : string) : bool :=
  match s with
  | EmptyString => true
  | String c rest => negb (Ascii.eqb c (ascii_of_nat 10)) && no_line_feed rest
  end.

(** [hay.includes(needle)] *)
Fixpoint includes (needle hay : string) : bool :=
  String.prefix needle hay ||
  match hay with
  | EmptyString => false
  | String _ rest => includes needle rest
  end.

(** Identifiers below the node of an instance, read relative to that node:
    what is left of a description once the place of the instance in the tree
    is forgotten. *)
Fixpoint below (this node : Path) : option Path :=
  match this, node with
  | [], _ => Some node
  | x :: this', y :: node' =>
      if String.eqb x y then below this' node' else None
  | _ :: _, [] => None
  end.

Definition relative_node (this node : Path) : Path :=
  match below this node with
  | Some rest => rest
  | None => node
  end.

Definition relative_arn (this : Path) (a : Arn) : Arn :=
  match a with
  | ArnOfRule node =>
      match below this node with
      | Some rest => ArnOfRule rest
      | None => a
      end
  | ArnOfTopic _ => a
  end.

Definition relative_rule (this : Path) (r : Rule) : Rule :=
  {| rule_node := relative_node this (rule_node r);
     rule_props := rule_props r;
     rule_targets := rule_targets r |}.

Definition relative_statement (this : Path) (s : PolicyStatement) : PolicyStatement :=
  {| effect := effect s;
     principals := principals s;
     actions := actions s;
     resources := map (relative_arn this) (resources s);
     conditions :=
       map (λ c : string * list (string * Arn),
              (c.1, map (λ kv : string * Arn, (kv.1, relative_arn this kv.2)) c.2))
           (conditions s) |}.

Definition relative_outcome (this : Path) (o : Outcome Path) : Outcome Path :=
  match o with
  | Return node => Return (relative_node this node)
  | Throw e => Throw e
  end.

(** What one run of the constructor added to the tree. *)
Definition new_rules (w w' : World) : list Rule :=
  drop (length (rules w)) (rules w').

Definition new_statements (w w' : World) : list (ITopic * PolicyStatement) :=
  drop (length (topic_policies w)) (topic_policies w').

(** How often a message occurs in a list of violations. *)
Fixpoint occurrences (m : string) (l : list string) : nat :=
  match l with
  | [] => 0
  | x :: xs => (if String.eqb m x then 1 else 0) + occurrences m xs
  end.

(** The statement of lines 131 to 147, for a topic and the ARN of a rule. *)
Definition scoped_grant (topic : ITopic) (rule_arn : Arn) : PolicyStatement :=
  {| effect := ALLOW;
     principals := [ServicePrincipal "events.amazonaws.com"];
     actions := ["sns:Publish"];
     resources := [topicArn topic];
     conditions := [("StringEquals", [("aws:SourceArn", rule_arn)])] |}.

(** The statement the binding of an [SnsTopic] target adds. *)
Definition open_grant (topic : ITopic) : PolicyStatement :=
  {| effect := ALLOW;
     principals := [ServicePrincipal "events.amazonaws.com"];
     actions := ["sns:Publish"];
     resources := [topicArn topic];
     conditions := [] |}.

(** The rule of lines 107 to 116 at a node, with the targets it holds. *)
Definition declared_rule (node : Path) (props : StripeEventsToSnsProps)
    (targets : list RuleTarget) : Rule :=
  {| rule_node := node;
     rule_props :=
       {| eventBus := props_eventBus props;
          eventPattern :=
            {| source := Some [prefix "aws.partner/stripe.com"];
               detailType := props_eventTypes props |};
          description := "Generic rule to relay Stripe events to SNS" |};
     rule_targets := targets |}.

(** The targets a rule ends up with, by what became of the template call
    and of the serialization of its result. *)
Definition targets_after `{Library} (topic : ITopic) (returned : string + Value)
    : list RuleTarget :=
  match returned with
  | inl _ => []
  | inr obj =>
      match serialize obj with
      | Fails => []
      | NoInput =>
          [{| target_id := "Target0"; target_arn := topicArn topic;
              target_input := None |}]
      | Template t =>
          [{| target_id := "Target0"; target_arn := topicArn topic;
              target_input := Some t |}]
      end
  end.

(** Whether a statement carries a condition. *)
Definition has_condition (s : PolicyStatement) : bool :=
  match conditions s with
  | [] => false
  | _ :: _ => true
  end.

(** ** Sample configurations *)

Module Sample.

Definition eventBus : IEventBus := {| eventBusName := "TestEventBus" |}.

(** [new sns.Topic(stack, 'TestTopic')] *)
Definition topic : ITopic :=
  {| topicName := "TestTopic";
     topic_node := ["TestStack"; "TestTopic"];
     imported := false |}.

(** [sns.Topic.fromTopicArn(stack, 'Imported', arn)] *)
Definition importedTopic : ITopic :=
  {| topicName := "ImportedTopic";
     topic_node := ["TestStack"; "Imported"];
     imported := true |}.

Definition eventTypes : list string :=
  ["payment_intent.succeeded"; "customer.created"].

(** The template of the test suite. *)
Definition messageTemplate : MessageTemplate :=
  fun eventField =>
    inr (VObj [("message", VStr [Lit "Stripe Event: ";
                                 fromPath eventField "$.detail-type"]);
               ("data", VStr [fromPath eventField "$.detail"])]).

(** What that template builds, serialized. *)
Definition serialized : Json :=
  JObj [("message", JStr [Lit "Stripe Event: "; FieldToken "$.detail-type"]);
        ("data", JStr [FieldToken "$.detail"])].

Definition failingTemplate : MessageTemplate :=
  fun _ => inl "template failed".

(** A template whose result holds a function. *)
Definition functionTemplate : MessageTemplate :=
  fun eventField =>
    inr (VObj [("message", VStr [fromPath eventField "$.detail-type"]);
               ("format", VFunction)]).

Definition stack : Path := ["TestStack"].

Definition props : StripeEventsToSnsProps :=
  valid_props eventBus topic eventTypes messageTemplate.

End Sample.

(** ** A stack with two notifiers *)

(** The nodes one run of the constructor registered. *)
Definition new_nodes (w w' : World) : list Path :=
  drop (length (nodes w)) (nodes w').

(** Two [new StripeEventsToSns(...)] statements in a row, as in the body of a
    stack that sets up one notifier after another: the second runs only if
    the first returned. *)
Definition two_notifiers `{Library}
    (scope1 : Path) (id1 : string) (props1 : StripeEventsToSnsProps)
    (scope2 : Path) (id2 : string) (props2 : StripeEventsToSnsProps) : M Path :=
  StripeEventsToSns_new scope1 id1 props1 ;;;
  StripeEventsToSns_new scope2 id2 props2.

(** ** How the constructor runs *)

Section Runs.

Context {L : Library}.
Variables (scope : Path) (id : string) (w : World).

(** The node of the instance and of the rule it declares. *)
Let this : Path := scope ++ [id].
Let rule_path : Path := this ++ ["StripeEventRule"].

(** The violations are the messages of the missing fields, in the order of
    the tests. *)
Lemma collect_errors_missing props :
  collect_errors props =
    field_message <$> filter (λ f, field_missing props f = true) required_fields.
Proof.
  destruct props as [[b|] [t|] [[|ty tys]|] [m|]]; reflexivity.
Qed.

Lemma collect_errors_nil props :
  collect_errors props = [] ↔ missing_count props = 0.
Proof.
  rewrite collect_errors_missing. unfold missing_count.
  rewrite <- (length_fmap field_message).
  split; [intros -> | intros H%nil_length_inv]; done.
Qed.

Lemma missing_count_valid bus topic types tmpl :
  types ≠ [] → missing_count (valid_props bus topic types tmpl) = 0.
Proof. destruct types; [done | reflexivity]. Qed.

(** With a violation, the validation block throws right after [super]. *)
Lemma run_invalid props :
  0 < missing_count props →
  StripeEventsToSns_new scope id props w =
    (Throw (ValidationError (validation_message (collect_errors props))),
     (Construct_new scope id w).2).
Proof.
  intros Hm. unfold StripeEventsToSns_new, bind, validate; cbn.
  destruct (collect_errors props) as [|e es] eqn:He; [|reflexivity].
  apply collect_errors_nil in He. lia.
Qed.

(** A topic that has been handed a statement creates no policy again. *)
Lemma policy_nodes_handed (handed : list (ITopic * PolicyStatement)) topic s :
  (topic, s) ∈ handed → policy_nodes handed topic = [].
Proof.
  intros Hin. unfold policy_nodes.
  rewrite bool_decide_eq_false_2, andb_false_r; [done|].
  intros Hnot. apply Hnot. apply list_elem_of_fmap. by exists (topic, s).
Qed.

(** Without a violation, the rule and the scoped grant are declared, the
    template is called, and only then the target is bound: first the open
    grant, then the serialization, which may fail, then the target. *)
Lemma run_valid bus topic types tmpl :
  types ≠ [] →
  StripeEventsToSns_new scope id (valid_props bus topic types tmpl) w =
    (match tmpl EventField with
     | inl e => Throw (Thrown e)
     | inr obj =>
         match serialize obj with
         | Fails => Throw LibraryError
         | _ => Return this
         end
     end,
     {| nodes := nodes w ++
          this :: rule_path :: (rule_path ++ ["Resource"])
            :: policy_nodes (topic_policies w) topic;
        rules := rules w ++
          [declared_rule rule_path (valid_props bus topic types tmpl)
             (targets_after topic (tmpl EventField))];
        topic_policies := topic_policies w ++
          (topic, scoped_grant topic (ArnOfRule rule_path)) ::
          match tmpl EventField with
          | inl _ => []
          | inr _ => [(topic, open_grant topic)]
          end;
        template_calls := template_calls w ++ [EventField] |}).
Proof.
  intros Hne. destruct types as [|ty tys]; [done|]. subst this rule_path.
  unfold StripeEventsToSns_new, bind, validate, call; cbn.
  destruct (tmpl EventField) as [e|obj];
    [by rewrite <- !app_assoc|].
  unfold addTarget, SnsTopic_bind, grantPublish, bind, addToResourcePolicy; cbn.
  rewrite (policy_nodes_handed (_ ++ _) topic
             (scoped_grant topic (ArnOfRule ((scope ++ [id]) ++ ["StripeEventRule"]))))
    by (apply elem_of_app; right; apply list_elem_of_here).
  rewrite app_nil_r.
  destruct (serialize obj) as [| |t]; cbn;
    rewrite ?alter_app_r_alt by lia; rewrite ?Nat.sub_diag;
    by rewrite <- !app_assoc.
Qed.

(** What a run on a valid configuration leaves when the template returns
    and its result is serialized. *)
Lemma run_valid_bound bus topic types tmpl obj t :
  types ≠ [] →
  tmpl EventField = inr obj →
  serialize obj = Template t →
  StripeEventsToSns_new scope id (valid_props bus topic types tmpl) w =
    (Return this,
     {| nodes := nodes w ++
          this :: rule_path :: (rule_path ++ ["Resource"])
            :: policy_nodes (topic_policies w) topic;
        rules := rules w ++
          [declared_rule rule_path (valid_props bus topic types tmpl)
             [{| target_id := "Target0"; target_arn := topicArn topic;
                 target_input := Some t |}]];
        topic_policies := topic_policies w ++
          [(topic, scoped_grant topic (ArnOfRule rule_path));
           (topic, open_grant topic)];
        template_calls := template_calls w ++ [EventField] |}).
Proof.
  intros Hne Hobj Ht. rewrite run_valid by done.
  unfold targets_after. by rewrite Hobj, Ht.
Qed.

(** Every configuration is of one kind or the other. *)
Lemma props_cases props :
  0 < missing_count props ∨
  ∃ bus topic types tmpl,
    types ≠ [] ∧ props = valid_props bus topic types tmpl.
Proof.
  destruct props as [[b|] [t|] [[|ty tys]|] [m|]];
    try (left; cbv; lia).
  right. by exists b, t, (ty :: tys), m.
Qed.

Lemma below_app (p rest : Path) : below p (p ++ rest) = Some rest.
Proof.
  induction p as [|x p IH]; [done|]. cbn. by rewrite String.eqb_refl.
Qed.

End Runs.
(** ** The text of the aggregated error *)

Section Lines.

Lemma lines_one_line (s : string) :
  no_line_feed s = true → lines s = [s].
Proof.
  induction s as [|c s IH]; [done|]. cbn.
  destruct (Ascii.eqb c _); [done|]. cbn.
  intros Hs. by rewrite IH.
Qed.

Lemma lines_line_feed (s rest : string) :
  no_line_feed s = true → lines (s +:+ nl +:+ rest) = s :: lines rest.
Proof.
  induction s as [|c s IH]; [done|]. intros Hs. cbn in Hs.
  change (lines (String c (s +:+ nl +:+ rest)) = String c s :: lines rest).
  cbn [lines]. destruct (Ascii.eqb c _); [done|].
  by rewrite IH.
Qed.

(** Joined with the separator of line 90, violations that hold no line
    feed come out one per line, each behind its dash. *)
Lemma lines_join (errors : list string) :
  errors ≠ [] →
  Forall (λ e, no_line_feed e = true) errors →
  lines ("  - " +:+ join (nl +:+ "  - ") errors)
    = map (String.append "  - ") errors.
Proof.
  induction errors as [|x [|y rest] IH]; [done | |]; intros _ Hall.
  - apply Forall_inv in Hall. cbn. by rewrite lines_one_line.
  - inversion_clear Hall as [|? ? Hx Hrest].
    change (lines (("  - " +:+ x) +:+ nl +:+ "  - " +:+ join (nl +:+ "  - ") (y :: rest))
            = ("  - " +:+ x) :: map (String.append "  - ") (y :: rest)).
    rewrite lines_line_feed by done. by rewrite IH.
Qed.

Lemma validation_message_lines (errors : list string) :
  errors ≠ [] →
  Forall (λ e, no_line_feed e = true) errors →
  lines (validation_message errors)
    = "StripeEventsToSns validation failed:" :: map (String.append "  - ") errors.
Proof.
  intros Hne Hall. unfold validation_message.
  rewrite lines_line_feed by reflexivity. by rewrite lines_join.
Qed.

Lemma collect_errors_one_line props :
  Forall (λ e, no_line_feed e = true) (collect_errors props).
Proof.
  rewrite collect_errors_missing. apply Forall_fmap, Forall_forall.
  intros [] _; reflexivity.
Qed.

End Lines.

(** ** The permission composer *)

(** C1. The code falls short of this.  At the configuration of the test
    suite, on a topic of the application, the policy of the topic ends with
    two statements, not one.  The first is the one of lines 131 to 147, tied
    to the ARN of the rule of this instance.  The second comes from binding
    the [SnsTopic] target at line 167: the same Allow of [sns:Publish] to
    [events.amazonaws.com] on the same topic, without any condition, so that
    the condition of the first no longer restricts who may publish.  On an
    imported topic the policy keeps neither. *)
Theorem scoped_grant_is_joined_by_an_open_grant :
  policy_of
    (StripeEventsToSns_new Sample.stack "TestNotifier" Sample.props empty).2
    Sample.topic
  = [{| effect := ALLOW;
        principals := [ServicePrincipal "events.amazonaws.com"];
        actions := ["sns:Publish"];
        resources := [topicArn Sample.topic];
        conditions :=
          [("StringEquals",
            [("aws:SourceArn",
              ArnOfRule ["TestStack"; "TestNotifier"; "StripeEventRule"])])] |};
     {| effect := ALLOW;
        principals := [ServicePrincipal "events.amazonaws.com"];
        actions := ["sns:Publish"];
        resources := [topicArn Sample.topic];
        conditions := [] |}] ∧
  policy_of
    (StripeEventsToSns_new Sample.stack "TestNotifier"
       (valid_props Sample.eventBus Sample.importedTopic Sample.eventTypes
          Sample.messageTemplate) empty).2
    Sample.importedTopic
  = [].
Proof. split; reflexivity. Qed.

(** ** The rule composer *)

(** C2. For every valid configuration the detail-type list of the declared
    rule is the given list of event types itself: the same elements in the
    same order, nothing sorted, merged, dropped or added. *)
Theorem detail_type_is_event_types {L : Library}
    (bus : IEventBus) (topic : ITopic) (types : list string)
    (tmpl : MessageTemplate) (scope : Path) (id : string) (w : World) :
  types ≠ [] →
  let w' := (StripeEventsToSns_new scope id (valid_props bus topic types tmpl) w).2 in
  ∃ r : Rule,
    rules w' = rules w ++ [r] ∧
    detailType (eventPattern (rule_props r)) = Some types.
Proof.
  intros Hne w'. subst w'. rewrite run_valid by done. cbn.
  eexists. split; reflexivity.
Qed.

Lemma detail_type_is_event_types_witness :
  ["b"; "a"; "b"] ≠ [] ∧
  ∃ r : Rule,
    rules (StripeEventsToSns_new Sample.stack "N"
             (valid_props Sample.eventBus Sample.topic ["b"; "a"; "b"]
                Sample.messageTemplate) empty).2 = rules empty ++ [r] ∧
    detailType (eventPattern (rule_props r)) = Some ["b"; "a"; "b"].
Proof.
  assert (Hne : ["b"; "a"; "b"] ≠ []) by discriminate.
  split; [exact Hne|].
  exact (detail_type_is_event_types Sample.eventBus Sample.topic ["b"; "a"; "b"]
           Sample.messageTemplate Sample.stack "N" empty Hne).
Defined.

(** C6. For every valid configuration the source matcher of the declared
    rule is one prefix match, not an exact match, on the fixed string
    [aws.partner/stripe.com]; the rule is bound to the configured bus and
    carries the fixed description.  With the event types
    [payment_intent.succeeded], [customer.created] the detail-type list of
    the rule is that two-element list in that order. *)
Theorem rule_pattern_bus_and_description {L : Library}
    (bus : IEventBus) (topic : ITopic) (types : list string)
    (tmpl : MessageTemplate) (scope : Path) (id : string) (w : World) :
  types ≠ [] →
  (∃ r : Rule,
     rules (StripeEventsToSns_new scope id (valid_props bus topic types tmpl) w).2
       = rules w ++ [r] ∧
     source (eventPattern (rule_props r)) = Some [prefix "aws.partner/stripe.com"] ∧
     (∀ s : string, source (eventPattern (rule_props r)) ≠ Some [exact s]) ∧
     eventBus (rule_props r) = Some bus ∧
     description (rule_props r) = "Generic rule to relay Stripe events to SNS") ∧
  (∃ r : Rule,
     rules (StripeEventsToSns_new scope id
              (valid_props bus topic ["payment_intent.succeeded"; "customer.created"] tmpl)
              w).2 = rules w ++ [r] ∧
     detailType (eventPattern (rule_props r))
       = Some ["payment_intent.succeeded"; "customer.created"]).
Proof.
  intros Hne. rewrite !run_valid by done. cbn. split.
  - eexists. split; [reflexivity|]. cbn. repeat split. discriminate.
  - eexists. split; reflexivity.
Qed.

Lemma rule_pattern_bus_and_description_witness :
  ["invoice.payment_succeeded"; "charge.dispute.created"] ≠ [] ∧
  (∃ r : Rule,
     rules (StripeEventsToSns_new Sample.stack "TestNotifier"
              (valid_props Sample.eventBus Sample.topic
                 ["invoice.payment_succeeded"; "charge.dispute.created"]
                 Sample.messageTemplate) empty).2
       = rules empty ++ [r] ∧
     source (eventPattern (rule_props r)) = Some [prefix "aws.partner/stripe.com"] ∧
     (∀ s : string, source (eventPattern (rule_props r)) ≠ Some [exact s]) ∧
     eventBus (rule_props r) = Some Sample.eventBus ∧
     description (rule_props r) = "Generic rule to relay Stripe events to SNS") ∧
  (∃ r : Rule,
     rules (StripeEventsToSns_new Sample.stack "TestNotifier"
              (valid_props Sample.eventBus Sample.topic
                 ["payment_intent.succeeded"; "customer.created"]
                 Sample.messageTemplate) empty).2 = rules empty ++ [r] ∧
     detailType (eventPattern (rule_props r))
       = Some ["payment_intent.succeeded"; "customer.created"]).
Proof.
  assert (Hne : ["invoice.payment_succeeded"; "charge.dispute.created"] ≠ [])
    by discriminate.
  split; [exact Hne|].
  exact (rule_pattern_bus_and_description Sample.eventBus Sample.topic
           ["invoice.payment_succeeded"; "charge.dispute.created"]
           Sample.messageTemplate Sample.stack "TestNotifier" empty Hne).
Defined.

(** C9. Validation looks at the list of event types only to see whether it
    is there and whether it is empty, never at its elements: two lists of
    the same length give the same violations whatever else the
    configuration holds.  Any non-empty list, with repeated, empty or
    unknown names alike, passes validation, and the declared rule carries
    it verbatim as its detail-type list. *)
Theorem event_types_are_not_inspected {L : Library}
    (bus : IEventBus) (topic : ITopic) (types : list string)
    (tmpl : MessageTemplate) (scope : Path) (id : string) (w : World) :
  types ≠ [] →
  (∀ (b : option IEventBus) (t : option ITopic) (m : option MessageTemplate)
     (l l' : list string),
     length l = length l' →
     collect_errors {| props_eventBus := b; props_topic := t;
                       props_eventTypes := Some l; props_messageTemplate := m |}
     = collect_errors {| props_eventBus := b; props_topic := t;
                         props_eventTypes := Some l'; props_messageTemplate := m |}) ∧
  validate (valid_props bus topic types tmpl) w = (Return tt, w) ∧
  (∀ msg : string,
     (StripeEventsToSns_new scope id (valid_props bus topic types tmpl) w).1
       ≠ Throw (ValidationError msg)) ∧
  ∃ r : Rule,
    rules (StripeEventsToSns_new scope id (valid_props bus topic types tmpl) w).2
      = rules w ++ [r] ∧
    detailType (eventPattern (rule_props r)) = Some types.
Proof.
  intros Hne. split; [|split; [|split]].
  - intros b t m l l' Hlen.
    destruct l, l'; try discriminate Hlen; destruct b, t, m; reflexivity.
  - destruct types; [done | reflexivity].
  - intros msg. rewrite run_valid by done. cbn.
    destruct (tmpl EventField) as [e|obj]; [|destruct (serialize obj)];
      discriminate.
  - rewrite run_valid by done. cbn. eexists. split; reflexivity.
Qed.

Lemma event_types_are_not_inspected_witness :
  ["x"; "x"; ""; "not a stripe event"] ≠ [] ∧
  (∀ (b : option IEventBus) (t : option ITopic) (m : option MessageTemplate)
     (l l' : list string),
     length l = length l' →
     collect_errors {| props_eventBus := b; props_topic := t;
                       props_eventTypes := Some l; props_messageTemplate := m |}
     = collect_errors {| props_eventBus := b; props_topic := t;
                         props_eventTypes := Some l'; props_messageTemplate := m |}) ∧
  validate (valid_props Sample.eventBus Sample.topic
              ["x"; "x"; ""; "not a stripe event"] Sample.messageTemplate) empty
    = (Return tt, empty) ∧
  (∀ msg : string,
     (StripeEventsToSns_new Sample.stack "N"
        (valid_props Sample.eventBus Sample.topic
           ["x"; "x"; ""; "not a stripe event"] Sample.messageTemplate) empty).1
       ≠ Throw (ValidationError msg)) ∧
  ∃ r : Rule,
    rules (StripeEventsToSns_new Sample.stack "N"
             (valid_props Sample.eventBus Sample.topic
                ["x"; "x"; ""; "not a stripe event"] Sample.messageTemplate) empty).2
      = rules empty ++ [r] ∧
    detailType (eventPattern (rule_props r))
      = Some ["x"; "x"; ""; "not a stripe event"].
Proof.
  assert (Hne : ["x"; "x"; ""; "not a stripe event"] ≠ []) by discriminate.
  split; [exact Hne|].
  exact (event_types_are_not_inspected Sample.eventBus Sample.topic
           ["x"; "x"; ""; "not a stripe event"] Sample.messageTemplate
           Sample.stack "N" empty Hne).
Defined.

(** ** The validator *)

(** C3. Whenever one or more of the four required fields is missing, or the
    list of event types is empty, construction throws one error.  Its text
    is built from a list of violations that holds the message of every
    missing field exactly once and nothing else, so that the list is as long
    as the number of missing fields; after the heading, the text shows each
    violation on a line of its own. *)
Theorem every_violation_is_reported {L : Library}
    (props : StripeEventsToSnsProps) (scope : Path) (id : string) (w : World) :
  0 < missing_count props →
  ∃ errors : list string,
    (StripeEventsToSns_new scope id props w).1
      = Throw (ValidationError (validation_message errors)) ∧
    length errors = missing_count props ∧
    (∀ f : Field,
       occurrences (field_message f) errors
         = if field_missing props f then 1 else 0) ∧
    lines (validation_message errors)
      = "StripeEventsToSns validation failed:" :: map (String.append "  - ") errors.
Proof.
  intros Hm. exists (collect_errors props).
  rewrite run_invalid by done. split; [reflexivity|]. split; [|split].
  - rewrite collect_errors_missing, length_fmap. reflexivity.
  - intros f.
    destruct props as [[b|] [t|] [[|ty tys]|] [m|]], f; reflexivity.
  - apply validation_message_lines, collect_errors_one_line.
    intros Hnil%collect_errors_nil. lia.
Qed.

Lemma every_violation_is_reported_witness :
  0 < missing_count {| props_eventBus := None;
                       props_topic := Some Sample.topic;
                       props_eventTypes := Some [];
                       props_messageTemplate := None |} ∧
  ∃ errors : list string,
    (StripeEventsToSns_new Sample.stack "TestNotifier"
       {| props_eventBus := None;
          props_topic := Some Sample.topic;
          props_eventTypes := Some [];
          props_messageTemplate := None |} empty).1
      = Throw (ValidationError (validation_message errors)) ∧
    length errors = missing_count {| props_eventBus := None;
                                     props_topic := Some Sample.topic;
                                     props_eventTypes := Some [];
                                     props_messageTemplate := None |} ∧
    (∀ f : Field,
       occurrences (field_message f) errors
         = if field_missing {| props_eventBus := None;
                               props_topic := Some Sample.topic;
                               props_eventTypes := Some [];
                               props_messageTemplate := None |} f
           then 1 else 0) ∧
    lines (validation_message errors)
      = "StripeEventsToSns validation failed:" :: map (String.append "  - ") errors.
Proof.
  assert (Hm : 0 < missing_count {| props_eventBus := None;
                                    props_topic := Some Sample.topic;
                                    props_eventTypes := Some [];
                                    props_messageTemplate := None |})
    by (vm_compute; lia).
  split; [exact Hm|].
  exact (every_violation_is_reported _ Sample.stack "TestNotifier" empty Hm).
Defined.

(** C10. Whichever fields are missing, the violations are the fixed
    messages of the missing fields in the fixed order eventBus, topic,
    eventTypes, messageTemplate, and so they stand in the error that is
    thrown: its text begins with [StripeEventsToSns validation failed:], and
    after that heading its lines are those messages, in that order, each
    behind its dash. *)
Theorem violations_keep_the_fixed_order {L : Library}
    (props : StripeEventsToSnsProps) (scope : Path) (id : string) (w : World) :
  field_message <$> [FEventBus; FTopic; FEventTypes; FMessageTemplate]
    = ["eventBus is required"; "topic is required";
       "eventTypes must be a non-empty array"; "messageTemplate is required"] ∧
  collect_errors props
    = field_message <$>
        filter (λ f, field_missing props f = true)
               [FEventBus; FTopic; FEventTypes; FMessageTemplate] ∧
  collect_errors props
    `sublist_of` ["eventBus is required"; "topic is required";
                  "eventTypes must be a non-empty array";
                  "messageTemplate is required"] ∧
  (0 < missing_count props →
   ∃ msg rest : string,
     (StripeEventsToSns_new scope id props w).1 = Throw (ValidationError msg) ∧
     msg = "StripeEventsToSns validation failed:" +:+ rest ∧
     lines msg
       = "StripeEventsToSns validation failed:" ::
         map (String.append "  - ")
           (field_message <$>
              filter (λ f, field_missing props f = true)
                     [FEventBus; FTopic; FEventTypes; FMessageTemplate])).
Proof.
  split; [reflexivity|]. split; [apply collect_errors_missing|]. split.
  - rewrite collect_errors_missing.
    apply (fmap_sublist field_message _ required_fields), sublist_filter.
  - intros Hm. rewrite run_invalid by done. eexists _, _.
    split; [reflexivity|]. split; [reflexivity|].
    rewrite validation_message_lines.
    + by rewrite collect_errors_missing.
    + intros Hnil%collect_errors_nil. lia.
    + apply collect_errors_one_line.
Qed.

Lemma violations_keep_the_fixed_order_witness :
  0 < missing_count {| props_eventBus := Some Sample.eventBus;
                       props_topic := None;
                       props_eventTypes := None;
                       props_messageTemplate := None |} ∧
  collect_errors {| props_eventBus := Some Sample.eventBus;
                    props_topic := None;
                    props_eventTypes := None;
                    props_messageTemplate := None |}
    = ["topic is required"; "eventTypes must be a non-empty array";
       "messageTemplate is required"] ∧
  ∃ msg rest : string,
    (StripeEventsToSns_new Sample.stack "TestNotifier"
       {| props_eventBus := Some Sample.eventBus;
          props_topic := None;
          props_eventTypes := None;
          props_messageTemplate := None |} empty).1
      = Throw (ValidationError msg) ∧
    msg = "StripeEventsToSns validation failed:" +:+ rest ∧
    lines msg
      = ["StripeEventsToSns validation failed:";
         "  - topic is required";
         "  - eventTypes must be a non-empty array";
         "  - messageTemplate is required"].
Proof.
  assert (Hm : 0 < missing_count {| props_eventBus := Some Sample.eventBus;
                                    props_topic := None;
                                    props_eventTypes := None;
                                    props_messageTemplate := None |})
    by (vm_compute; lia).
  split; [exact Hm|].
  destruct (violations_keep_the_fixed_order
              {| props_eventBus := Some Sample.eventBus;
                 props_topic := None;
                 props_eventTypes := None;
                 props_messageTemplate := None |}
              Sample.stack "TestNotifier" empty) as (_ & Herr & _ & Hthrow).
  split; [exact Herr | exact (Hthrow Hm)].
Defined.

(** C7. The aggregated validation error is thrown exactly when a required
    field is missing or the list of event types is empty.  When every
    check passes, the validation block leaves the tree as it found it and
    throws nothing.  When the error is thrown, its text names every
    offending field, and no rule, grant or target has been declared and no
    template called; so it is with an empty list of event types, where the
    text names [eventTypes]. *)
Theorem validation_error_iff_missing {L : Library}
    (props : StripeEventsToSnsProps) (scope : Path) (id : string) (w : World) :
  let run := StripeEventsToSns_new scope id props w in
  ((∃ msg : string, run.1 = Throw (ValidationError msg)) ↔
   (props_eventBus props = None ∨ props_topic props = None ∨
    props_eventTypes props = None ∨ props_eventTypes props = Some [] ∨
    props_messageTemplate props = None)) ∧
  (missing_count props = 0 → validate props w = (Return tt, w)) ∧
  (∀ msg : string,
     run.1 = Throw (ValidationError msg) →
     rules run.2 = rules w ∧
     topic_policies run.2 = topic_policies w ∧
     template_calls run.2 = template_calls w ∧
     ∀ f : Field, field_missing props f = true → includes (field_name f) msg = true) ∧
  (props_eventTypes props = Some [] →
   ∃ msg : string,
     run.1 = Throw (ValidationError msg) ∧
     includes "eventTypes" msg = true ∧
     new_rules w run.2 = [] ∧
     new_statements w run.2 = []).
Proof.
  intros run. subst run.
  destruct (props_cases props) as [Hm | (bus & topic & types & tmpl & Hne & ->)].
  - rewrite run_invalid by done. split; [|split; [|split]].
    + split; [intros _ | intros _; eexists; reflexivity].
      destruct props as [[b|] [t|] [[|ty tys]|] [m|]]; cbn; auto 6.
      cbv in Hm. lia.
    + intros H0. rewrite H0 in Hm. lia.
    + cbn. intros msg [= <-]. do 3 (split; [reflexivity|]). intros f Hf.
      destruct props as [[b|] [t|] [[|ty tys]|] [m|]], f;
        first [discriminate Hf | reflexivity].
    + intros Hty. eexists. split; [reflexivity|].
      unfold new_rules, new_statements; cbn. rewrite !drop_all.
      split; [|done].
      destruct props as [[b|] [t|] [[|ty tys]|] [m|]];
        first [discriminate Hty | reflexivity].
  - rewrite run_valid by done. cbn. split; [|split; [|split]].
    + split.
      * intros [msg Hmsg].
        destruct (tmpl EventField) as [e|obj]; [|destruct (serialize obj)];
          discriminate.
      * intros [H | [H | [H | [H | H]]]]; try discriminate H.
        by injection H.
    + intros _. destruct types; [done | reflexivity].
    + intros msg Hmsg.
      destruct (tmpl EventField) as [e|obj]; [|destruct (serialize obj)];
        discriminate.
    + intros [= ->]. done.
Qed.

Lemma validation_error_iff_missing_witness :
  ∃ msg : string,
    (StripeEventsToSns_new Sample.stack "TestNotifier"
       {| props_eventBus := Some Sample.eventBus;
          props_topic := Some Sample.topic;
          props_eventTypes := Some [];
          props_messageTemplate := Some Sample.messageTemplate |} empty).1
      = Throw (ValidationError msg) ∧
    includes "eventTypes" msg = true ∧
    new_rules empty
      (StripeEventsToSns_new Sample.stack "TestNotifier"
         {| props_eventBus := Some Sample.eventBus;
            props_topic := Some Sample.topic;
            props_eventTypes := Some [];
            props_messageTemplate := Some Sample.messageTemplate |} empty).2 = [] ∧
    new_statements empty
      (StripeEventsToSns_new Sample.stack "TestNotifier"
         {| props_eventBus := Some Sample.eventBus;
            props_topic := Some Sample.topic;
            props_eventTypes := Some [];
            props_messageTemplate := Some Sample.messageTemplate |} empty).2 = [].
Proof.
  destruct (validation_error_iff_missing
              {| props_eventBus := Some Sample.eventBus;
                 props_topic := Some Sample.topic;
                 props_eventTypes := Some [];
                 props_messageTemplate := Some Sample.messageTemplate |}
              Sample.stack "TestNotifier" empty) as (_ & _ & _ & Hempty).
  exact (Hempty eq_refl).
Defined.

(** ** Two instantiations *)

Section Relative.

Context {L : Library}.
Variables (scope : Path) (id : string) (w : World).

Lemma relative_node_self : relative_node (scope ++ [id]) (scope ++ [id]) = [].
Proof.
  unfold relative_node.
  rewrite <- (app_nil_r (scope ++ [id])) at 2. by rewrite below_app.
Qed.

(** Seen from the instance, a run on a valid configuration has declared
    the same thing wherever the instance sits in the tree. *)
Lemma run_valid_relative bus topic types tmpl :
  types ≠ [] →
  let run := StripeEventsToSns_new scope id (valid_props bus topic types tmpl) w in
  relative_outcome (scope ++ [id]) run.1
    = match tmpl EventField with
      | inl e => Throw (Thrown e)
      | inr obj =>
          match serialize obj with
          | Fails => Throw LibraryError
          | _ => Return []
          end
      end ∧
  map (relative_rule (scope ++ [id])) (new_rules w run.2)
    = [declared_rule ["StripeEventRule"] (valid_props bus topic types tmpl)
         (targets_after topic (tmpl EventField))] ∧
  map (λ ts : ITopic * PolicyStatement,
         (ts.1, relative_statement (scope ++ [id]) ts.2))
      (new_statements w run.2)
    = (topic, scoped_grant topic (ArnOfRule ["StripeEventRule"])) ::
      match tmpl EventField with
      | inl _ => []
      | inr _ => [(topic, open_grant topic)]
      end.
Proof.
  intros Hne run. subst run. rewrite run_valid by done.
  unfold new_rules, new_statements. cbn. rewrite !drop_app_length. cbn.
  unfold relative_rule, relative_statement, relative_node; cbn.
  rewrite !below_app. split; [|split; [done|]].
  - destruct (tmpl EventField) as [e|obj]; [done|].
    destruct (serialize obj); cbn; by rewrite ?relative_node_self.
  - by destruct (tmpl EventField).
Qed.

Lemma run_invalid_relative props :
  0 < missing_count props →
  let run := StripeEventsToSns_new scope id props w in
  relative_outcome (scope ++ [id]) run.1
    = Throw (ValidationError (validation_message (collect_errors props))) ∧
  new_rules w run.2 = [] ∧
  new_statements w run.2 = [].
Proof.
  intros Hm run. subst run. rewrite run_invalid by done.
  unfold new_rules, new_statements. cbn. by rewrite !drop_all.
Qed.

End Relative.

(** C8. Two instantiations from one configuration, anywhere in any two
    trees, end alike and declare alike: once every identifier below an
    instance is read relative to the node of that instance, the outcomes,
    the rules with their targets, and the grants of the two runs are
    equal. *)
Theorem two_instantiations_agree {L : Library}
    (props : StripeEventsToSnsProps)
    (scope1 : Path) (id1 : string) (w1 : World)
    (scope2 : Path) (id2 : string) (w2 : World) :
  let this1 := scope1 ++ [id1] in
  let this2 := scope2 ++ [id2] in
  let run1 := StripeEventsToSns_new scope1 id1 props w1 in
  let run2 := StripeEventsToSns_new scope2 id2 props w2 in
  relative_outcome this1 run1.1 = relative_outcome this2 run2.1 ∧
  map (relative_rule this1) (new_rules w1 run1.2)
    = map (relative_rule this2) (new_rules w2 run2.2) ∧
  map (λ ts : ITopic * PolicyStatement, (ts.1, relative_statement this1 ts.2))
      (new_statements w1 run1.2)
    = map (λ ts : ITopic * PolicyStatement, (ts.1, relative_statement this2 ts.2))
          (new_statements w2 run2.2).
Proof.
  intros this1 this2 run1 run2. subst this1 this2 run1 run2.
  destruct (props_cases props) as [Hm | (bus & topic & types & tmpl & Hne & ->)].
  - destruct (run_invalid_relative scope1 id1 w1 props Hm) as (-> & -> & ->).
    destruct (run_invalid_relative scope2 id2 w2 props Hm) as (-> & -> & ->).
    done.
  - destruct (run_valid_relative scope1 id1 w1 bus topic types tmpl Hne)
      as (-> & -> & ->).
    destruct (run_valid_relative scope2 id2 w2 bus topic types tmpl Hne)
      as (-> & -> & ->).
    done.
Qed.

(** ** The target binder *)




(** C5, as the specification has it, fails.  A configuration that passes
    validation but whose template throws gets its rule without any target,
    although the template has been called once; and so does one whose
    template returns a structure that cannot be serialized, here one that
    holds a function. *)
Lemma throwing_template_attaches_no_target :
  (let run :=
     StripeEventsToSns_new Sample.stack "TestNotifier"
       (valid_props Sample.eventBus Sample.topic Sample.eventTypes
          Sample.failingTemplate) empty in
   length (template_calls run.2) = 1 ∧
   length (new_rules empty run.2) = 1 ∧
   ∀ r : Rule, r ∈ new_rules empty run.2 → length (rule_targets r) ≠ 1) ∧
  (let run :=
     StripeEventsToSns_new Sample.stack "TestNotifier"
       (valid_props Sample.eventBus Sample.topic Sample.eventTypes
          Sample.functionTemplate) empty in
   run.1 = Throw LibraryError ∧
   length (template_calls run.2) = 1 ∧
   length (new_rules empty run.2) = 1 ∧
   ∀ r : Rule, r ∈ new_rules empty run.2 → length (rule_targets r) ≠ 1).
Proof.
  cbv zeta. rewrite !run_valid by discriminate. split.
  - split; [reflexivity|]. split; [reflexivity|].
    intros r Hr. apply list_elem_of_singleton in Hr. subst r. cbn. lia.
  - split; [reflexivity|]. split; [reflexivity|]. split; [reflexivity|].
    intros r Hr. apply list_elem_of_singleton in Hr. subst r. cbn. lia.
Qed.

(** C5, amended. For every valid configuration the template is called
    exactly once, during construction, with [EventField]; and whenever that
    call returns a structure that can be serialized, the declared rule has
    exactly one target: it delivers to the ARN of the configured topic, and
    its message is the serialized result of the call. *)
Theorem template_called_once_and_bound {L : Library}
    (bus : IEventBus) (topic : ITopic) (types : list string)
    (tmpl : MessageTemplate) (scope : Path) (id : string) (w : World) :
  types ≠ [] →
  let run := StripeEventsToSns_new scope id (valid_props bus topic types tmpl) w in
  template_calls run.2 = template_calls w ++ [EventField] ∧
  ∀ (obj : Value) (t : Json),
    tmpl EventField = inr obj →
    serialize obj = Template t →
    ∃ r : Rule,
      rules run.2 = rules w ++ [r] ∧
      rule_targets r = [{| target_id := "Target0";
                           target_arn := topicArn topic;
                           target_input := Some t |}].
Proof.
  intros Hne run. subst run. split.
  - by rewrite run_valid.
  - intros obj t Hobj Ht.
    rewrite (run_valid_bound scope id w bus topic types tmpl obj t) by done.
    eexists. split; reflexivity.
Qed.

Lemma template_called_once_and_bound_witness :
  Sample.eventTypes ≠ [] ∧
  template_calls (StripeEventsToSns_new Sample.stack "TestNotifier" Sample.props empty).2
    = template_calls empty ++ [EventField] ∧
  ∃ r : Rule,
    rules (StripeEventsToSns_new Sample.stack "TestNotifier" Sample.props empty).2
      = rules empty ++ [r] ∧
    rule_targets r
      = [{| target_id := "Target0";
            target_arn := topicArn Sample.topic;
            target_input :=
              Some (JObj [("message", JStr [Lit "Stripe Event: ";
                                            FieldToken "$.detail-type"]);
                          ("data", JStr [FieldToken "$.detail"])]) |}].
Proof.
  assert (Hne : Sample.eventTypes ≠ []) by discriminate.
  split; [exact Hne|].
  destruct (template_called_once_and_bound Sample.eventBus Sample.topic
              Sample.eventTypes Sample.messageTemplate
              Sample.stack "TestNotifier" empty Hne) as [Hcalls Hbound].
  split; [exact Hcalls|].
  exact (Hbound _ _ eq_refl eq_refl).
Defined.

(** ** Beyond the composers: how the constructor behaves as a whole *)

(** X1. Whatever the configuration, the constructor never fails on reading
    a property of [undefined]: the checks of the validation block cover
    every field that is dereferenced or called afterwards. *)
Theorem never_reads_undefined {L : Library}
    (props : StripeEventsToSnsProps) (scope : Path) (id : string) (w : World) :
  (StripeEventsToSns_new scope id props w).1 ≠ Throw TypeError.
Proof.
  destruct (props_cases props) as [Hm | (bus & topic & types & tmpl & Hne & ->)].
  - by rewrite run_invalid.
  - rewrite run_valid by done. cbn.
    destruct (tmpl EventField) as [e|obj]; [|destruct (serialize obj)];
      discriminate.
Qed.

(** X3. The constructor only ever adds to the tree.  Whatever the
    configuration and whether it returns or throws, the nodes, the rules
    with their targets, the policy statements and the log of template calls
    it found are still there, unchanged and at the same positions. *)
Theorem existing_declarations_are_kept {L : Library}
    (props : StripeEventsToSnsProps) (scope : Path) (id : string) (w : World) :
  let w' := (StripeEventsToSns_new scope id props w).2 in
  nodes w `prefix_of` nodes w' ∧
  rules w `prefix_of` rules w' ∧
  topic_policies w `prefix_of` topic_policies w' ∧
  template_calls w `prefix_of` template_calls w' ∧
  (∀ (i : nat) (r : Rule), rules w !! i = Some r → rules w' !! i = Some r) ∧
  (∀ (i : nat) (ts : ITopic * PolicyStatement),
     topic_policies w !! i = Some ts → topic_policies w' !! i = Some ts).
Proof.
  intros w'. subst w'.
  assert (Hlookup : ∀ (A : Type) (l l' : list A) (i : nat) (x : A),
            l `prefix_of` l' → l !! i = Some x → l' !! i = Some x).
  { intros A l l' i x [k ->] Hx. by apply lookup_app_l_Some. }
  assert (Hprefix :
    nodes w `prefix_of` nodes (StripeEventsToSns_new scope id props w).2 ∧
    rules w `prefix_of` rules (StripeEventsToSns_new scope id props w).2 ∧
    topic_policies w
      `prefix_of` topic_policies (StripeEventsToSns_new scope id props w).2 ∧
    template_calls w
      `prefix_of` template_calls (StripeEventsToSns_new scope id props w).2).
  { destruct (props_cases props) as [Hm | (bus & topic & types & tmpl & Hne & ->)].
    - rewrite run_invalid by done. cbn.
      repeat split; first [done | by apply prefix_app_r].
    - rewrite run_valid by done. cbn.
      repeat split; by apply prefix_app_r. }
  destruct Hprefix as (Hn & Hr & Hp & Hc).
  repeat split; eauto.
Qed.

(** ** Reading the aggregated error *)

Section Violations.

Context {L : Library}.

(** Each check contributes its message or nothing, independently of the
    other three. *)
Lemma collect_errors_by_field props :
  collect_errors props =
    (if field_missing props FEventBus then ["eventBus is required"] else []) ++
    (if field_missing props FTopic then ["topic is required"] else []) ++
    (if field_missing props FEventTypes
     then ["eventTypes must be a non-empty array"] else []) ++
    (if field_missing props FMessageTemplate
     then ["messageTemplate is required"] else []).
Proof. destruct props as [[b|] [t|] [[|ty tys]|] [m|]]; reflexivity. Qed.

Lemma occurrences_collect_errors props f :
  occurrences (field_message f) (collect_errors props)
    = if field_missing props f then 1 else 0.
Proof.
  rewrite collect_errors_by_field.
  destruct (field_missing props FEventBus) eqn:Hb,
           (field_missing props FTopic) eqn:Ht,
           (field_missing props FEventTypes) eqn:He,
           (field_missing props FMessageTemplate) eqn:Hm, f;
    rewrite ?Hb, ?Ht, ?He, ?Hm; reflexivity.
Qed.

Lemma dashed_inj (l l' : list string) :
  map (String.append "  - ") l = map (String.append "  - ") l' → l = l'.
Proof.
  revert l'. induction l as [|x l IH]; intros [|y l'] Heq;
    try discriminate Heq; [done|].
  cbn in Heq. injection Heq as Hxy Hrest.
  f_equal; [exact Hxy | by apply IH].
Qed.

(** The text of the error determines the violations it was built from. *)
Lemma validation_message_inj props1 props2 :
  0 < missing_count props1 →
  0 < missing_count props2 →
  validation_message (collect_errors props1)
    = validation_message (collect_errors props2) →
  collect_errors props1 = collect_errors props2.
Proof.
  intros H1 H2 Heq. apply (f_equal lines) in Heq.
  rewrite !validation_message_lines in Heq;
    try apply collect_errors_one_line;
    try (intros Hnil%collect_errors_nil; lia).
  injection Heq as Heq. by apply dashed_inj.
Qed.

End Violations.

(** X6. The aggregated error says which fields are missing and nothing
    else.  Two configurations that both fail validation fail with the same
    error exactly when the same fields are missing in both, wherever they
    are instantiated and whatever the fields that are present hold. *)
Theorem error_identifies_missing_fields {L : Library}
    (props1 props2 : StripeEventsToSnsProps)
    (scope1 scope2 : Path) (id1 id2 : string) (w1 w2 : World) :
  0 < missing_count props1 →
  0 < missing_count props2 →
  (StripeEventsToSns_new scope1 id1 props1 w1).1
    = (StripeEventsToSns_new scope2 id2 props2 w2).1
  ↔ ∀ f : Field, field_missing props1 f = field_missing props2 f.
Proof.
  intros H1 H2. rewrite !run_invalid by done. cbn [fst]. split.
  - intros Hthrow f.
    assert (Heq : validation_message (collect_errors props1)
                  = validation_message (collect_errors props2)) by congruence.
    apply validation_message_inj in Heq; [|done..].
    pose proof (occurrences_collect_errors props1 f) as Ho1.
    pose proof (occurrences_collect_errors props2 f) as Ho2.
    rewrite Heq, Ho2 in Ho1.
    by destruct (field_missing props1 f), (field_missing props2 f).
  - intros Hsame. by rewrite !collect_errors_by_field, !Hsame.
Qed.

Lemma error_identifies_missing_fields_witness :
  0 < missing_count {| props_eventBus := None;
                       props_topic := Some Sample.topic;
                       props_eventTypes := Some [];
                       props_messageTemplate := Some Sample.messageTemplate |} ∧
  0 < missing_count {| props_eventBus := None;
                       props_topic := Some {| topicName := "OtherTopic";
                                     topic_node := ["OtherStack"; "OtherTopic"];
                                     imported := false |};
                       props_eventTypes := None;
                       props_messageTemplate := Some Sample.failingTemplate |} ∧
  (StripeEventsToSns_new Sample.stack "A"
     {| props_eventBus := None;
        props_topic := Some Sample.topic;
        props_eventTypes := Some [];
        props_messageTemplate := Some Sample.messageTemplate |} empty).1
  = (StripeEventsToSns_new ["OtherStack"] "B"
       {| props_eventBus := None;
          props_topic := Some {| topicName := "OtherTopic";
                                     topic_node := ["OtherStack"; "OtherTopic"];
                                     imported := false |};
          props_eventTypes := None;
          props_messageTemplate := Some Sample.failingTemplate |} empty).1.
Proof.
  assert (H1 : 0 < missing_count
                     {| props_eventBus := None;
                        props_topic := Some Sample.topic;
                        props_eventTypes := Some [];
                        props_messageTemplate := Some Sample.messageTemplate |})
    by (vm_compute; lia).
  assert (H2 : 0 < missing_count
                     {| props_eventBus := None;
                        props_topic := Some {| topicName := "OtherTopic";
                                     topic_node := ["OtherStack"; "OtherTopic"];
                                     imported := false |};
                        props_eventTypes := None;
                        props_messageTemplate := Some Sample.failingTemplate |})
    by (vm_compute; lia).
  split; [exact H1|]. split; [exact H2|].
  apply (error_identifies_missing_fields _ _ Sample.stack ["OtherStack"] "A" "B"
           empty empty H1 H2).
  intros []; reflexivity.
Defined.

(** X7. The four checks are independent.  Supplying one field, and leaving
    the others missing or present as they were, removes the violation of that
    field from the list and changes nothing else in it. *)
Theorem supplying_a_field_drops_only_its_violation
    (props props' : StripeEventsToSnsProps) (f : Field) :
  field_missing props' f = false →
  (∀ g : Field, g ≠ f → field_missing props' g = field_missing props g) →
  collect_errors props'
    = filter (λ e : string, e ≠ field_message f) (collect_errors props).
Proof.
  intros Hf Hothers. rewrite !collect_errors_by_field.
  destruct f;
    repeat match goal with
    | |- context [field_missing props' ?g] =>
        first [ rewrite Hf | rewrite (Hothers g) by discriminate ]
    end;
    destruct (field_missing props FEventBus), (field_missing props FTopic),
             (field_missing props FEventTypes),
             (field_missing props FMessageTemplate);
    reflexivity.
Qed.

Lemma supplying_a_field_drops_only_its_violation_witness :
  field_missing {| props_eventBus := None;
                   props_topic := Some Sample.topic;
                   props_eventTypes := Some ["customer.created"];
                   props_messageTemplate := None |} FEventTypes = false ∧
  (∀ g : Field,
     g ≠ FEventTypes →
     field_missing {| props_eventBus := None;
                      props_topic := Some Sample.topic;
                      props_eventTypes := Some ["customer.created"];
                      props_messageTemplate := None |} g
     = field_missing {| props_eventBus := None;
                        props_topic := Some Sample.topic;
                        props_eventTypes := Some [];
                        props_messageTemplate := None |} g) ∧
  collect_errors {| props_eventBus := None;
                    props_topic := Some Sample.topic;
                    props_eventTypes := Some ["customer.created"];
                    props_messageTemplate := None |}
    = filter (λ e : string, e ≠ field_message FEventTypes)
        (collect_errors {| props_eventBus := None;
                           props_topic := Some Sample.topic;
                           props_eventTypes := Some [];
                           props_messageTemplate := None |}).
Proof.
  assert (Hf : field_missing {| props_eventBus := None;
                                props_topic := Some Sample.topic;
                                props_eventTypes := Some ["customer.created"];
                                props_messageTemplate := None |} FEventTypes = false)
    by reflexivity.
  assert (Hothers : ∀ g : Field,
            g ≠ FEventTypes →
            field_missing {| props_eventBus := None;
                             props_topic := Some Sample.topic;
                             props_eventTypes := Some ["customer.created"];
                             props_messageTemplate := None |} g
            = field_missing {| props_eventBus := None;
                               props_topic := Some Sample.topic;
                               props_eventTypes := Some [];
                               props_messageTemplate := None |} g).
  { intros [] Hg; first [reflexivity | by destruct Hg]. }
  split; [exact Hf|]. split; [exact Hothers|].
  exact (supplying_a_field_drops_only_its_violation _ _ FEventTypes Hf Hothers).
Defined.

(** X9. The text of the aggregated error names a required field exactly
    when that field is missing: every offending field appears in it, and no
    field that was supplied does. *)
Theorem error_names_exactly_the_missing_fields {L : Library}
    (props : StripeEventsToSnsProps) (scope : Path) (id : string) (w : World) :
  0 < missing_count props →
  ∃ msg : string,
    (StripeEventsToSns_new scope id props w).1 = Throw (ValidationError msg) ∧
    ∀ f : Field, includes (field_name f) msg = field_missing props f.
Proof.
  intros Hm. rewrite run_invalid by done. eexists. split; [reflexivity|].
  intros f.
  destruct props as [[b|] [t|] [[|ty tys]|] [m|]], f;
    first [reflexivity | cbv in Hm; lia].
Qed.

Lemma error_names_exactly_the_missing_fields_witness :
  0 < missing_count {| props_eventBus := Some Sample.eventBus;
                       props_topic := None;
                       props_eventTypes := Some Sample.eventTypes;
                       props_messageTemplate := None |} ∧
  ∃ msg : string,
    (StripeEventsToSns_new Sample.stack "TestNotifier"
       {| props_eventBus := Some Sample.eventBus;
          props_topic := None;
          props_eventTypes := Some Sample.eventTypes;
          props_messageTemplate := None |} empty).1 = Throw (ValidationError msg) ∧
    ∀ f : Field,
      includes (field_name f) msg
        = field_missing {| props_eventBus := Some Sample.eventBus;
                           props_topic := None;
                           props_eventTypes := Some Sample.eventTypes;
                           props_messageTemplate := None |} f.
Proof.
  assert (Hm : 0 < missing_count
                     {| props_eventBus := Some Sample.eventBus;
                        props_topic := None;
                        props_eventTypes := Some Sample.eventTypes;
                        props_messageTemplate := None |})
    by (vm_compute; lia).
  split; [exact Hm|].
  exact (error_names_exactly_the_missing_fields _ Sample.stack "TestNotifier"
           empty Hm).
Defined.


(** ** What the library adds *)

Section Policies.

Lemma policy_nodes_other
    (handed extra : list (ITopic * PolicyStatement)) (topic other : ITopic) :
  topic ≠ other →
  (∀ ts : ITopic * PolicyStatement, ts ∈ extra → ts.1 = other) →
  policy_nodes (handed ++ extra) topic = policy_nodes handed topic.
Proof.
  intros Hne Hextra. unfold policy_nodes.
  rewrite (bool_decide_ext (topic ∉ (handed ++ extra).*1) (topic ∉ handed.*1));
    [done|].
  rewrite fmap_app, not_elem_of_app. split; [by intros [? _]|].
  intros Hnot. split; [done|].
  intros (ts & -> & Hin)%list_elem_of_fmap. by apply Hne, Hextra.
Qed.


End Policies.

(** X2. Construction returns only if the four fields are present, the list
    of event types is not empty, the template call has returned and the
    library has not failed to serialize its result. *)
Theorem construction_returns_only_if {L : Library}
    (props : StripeEventsToSnsProps) (scope : Path) (id : string) (w : World)
    (this : Path) :
  (StripeEventsToSns_new scope id props w).1 = Return this →
  ∃ bus topic types tmpl obj,
    props = valid_props bus topic types tmpl ∧
    types ≠ [] ∧
    tmpl EventField = inr obj ∧
    serialize obj ≠ Fails.
Proof.
  destruct (props_cases props) as [Hm | (bus & topic & types & tmpl & Hne & ->)].
  - by rewrite run_invalid.
  - rewrite run_valid by done. cbn.
    destruct (tmpl EventField) as [e|obj] eqn:Hobj; [done|].
    destruct (serialize obj) eqn:Hs; [done| |]; intros _;
      exists bus, topic, types, tmpl, obj; by rewrite Hs.
Qed.

Lemma construction_returns_only_if_witness :
  (StripeEventsToSns_new Sample.stack "TestNotifier" Sample.props empty).1
    = Return ["TestStack"; "TestNotifier"] ∧
  ∃ bus topic types tmpl obj,
    Sample.props = valid_props bus topic types tmpl ∧
    types ≠ [] ∧
    tmpl EventField = inr obj ∧
    serialize obj ≠ Fails.
Proof.
  assert (Hrun : (StripeEventsToSns_new Sample.stack "TestNotifier"
                    Sample.props empty).1 = Return ["TestStack"; "TestNotifier"])
    by reflexivity.
  split; [exact Hrun|].
  exact (construction_returns_only_if Sample.props Sample.stack "TestNotifier"
           empty _ Hrun).
Defined.





(** ** Several notifiers in one stack *)

(** X4. Two notifiers set up one after the other at different nodes, on
    whatever topics (the same one included), keep apart what is their own:
    each rule has its own single target and its own detail types; of the
    statements handed to the topics, those that carry a condition are one
    per notifier, in order, each tied to the ARN of the rule of its own
    instance, and the two ARNs differ. *)
Theorem notifiers_do_not_interfere {L : Library}
    (bus1 bus2 : IEventBus) (topic1 topic2 : ITopic)
    (types1 types2 : list string) (tmpl1 tmpl2 : MessageTemplate)
    (obj1 obj2 : Value) (t1 t2 : Json)
    (scope1 scope2 : Path) (id1 id2 : string) (w : World) :
  types1 ≠ [] →
  types2 ≠ [] →
  tmpl1 EventField = inr obj1 →
  tmpl2 EventField = inr obj2 →
  serialize obj1 = Template t1 →
  serialize obj2 = Template t2 →
  scope1 ++ [id1] ≠ scope2 ++ [id2] →
  let run :=
    two_notifiers scope1 id1 (valid_props bus1 topic1 types1 tmpl1)
                  scope2 id2 (valid_props bus2 topic2 types2 tmpl2) w in
  ∃ (r1 r2 : Rule) (s1 s2 : PolicyStatement),
    rules run.2 = rules w ++ [r1; r2] ∧
    rule_targets r1 = [{| target_id := "Target0";
                          target_arn := topicArn topic1;
                          target_input := Some t1 |}] ∧
    rule_targets r2 = [{| target_id := "Target0";
                          target_arn := topicArn topic2;
                          target_input := Some t2 |}] ∧
    detailType (eventPattern (rule_props r1)) = Some types1 ∧
    detailType (eventPattern (rule_props r2)) = Some types2 ∧
    filter (λ ts : ITopic * PolicyStatement, has_condition ts.2 = true)
           (new_statements w run.2)
      = [(topic1, s1); (topic2, s2)] ∧
    conditions s1 = [("StringEquals", [("aws:SourceArn", ruleArn r1)])] ∧
    conditions s2 = [("StringEquals", [("aws:SourceArn", ruleArn r2)])] ∧
    ruleArn r1 ≠ ruleArn r2.
Proof.
  intros Hne1 Hne2 Hobj1 Hobj2 Ht1 Ht2 Hthis run. subst run.
  unfold two_notifiers, bind, new_statements.
  rewrite (run_valid_bound scope1 id1 w bus1 topic1 types1 tmpl1 obj1 t1) by done.
  rewrite (run_valid_bound scope2 id2 _ bus2 topic2 types2 tmpl2 obj2 t2) by done.
  cbn. eexists _, _, _, _. split; [by rewrite <- app_assoc|]. cbn.
  do 4 (split; [reflexivity|]).
  split; [by rewrite <- app_assoc, drop_app_length|]. cbn.
  do 2 (split; [reflexivity|]).
  unfold ruleArn; cbn. intros [= Heq]. by apply app_inj_tail in Heq as [? _].
Qed.

Lemma notifiers_do_not_interfere_witness :
  Sample.eventTypes ≠ [] ∧
  ["customer.subscription.created"] ≠ [] ∧
  Sample.stack ++ ["PaymentNotifier"] ≠ Sample.stack ++ ["SubscriptionNotifier"] ∧
  ∃ (r1 r2 : Rule) (s1 s2 : PolicyStatement),
    rules (two_notifiers
             Sample.stack "PaymentNotifier" Sample.props
             Sample.stack "SubscriptionNotifier"
             (valid_props Sample.eventBus Sample.topic
                ["customer.subscription.created"] Sample.messageTemplate)
             empty).2 = rules empty ++ [r1; r2] ∧
    filter (λ ts : ITopic * PolicyStatement, has_condition ts.2 = true)
      (new_statements empty
         (two_notifiers
            Sample.stack "PaymentNotifier" Sample.props
            Sample.stack "SubscriptionNotifier"
            (valid_props Sample.eventBus Sample.topic
               ["customer.subscription.created"] Sample.messageTemplate)
            empty).2) = [(Sample.topic, s1); (Sample.topic, s2)] ∧
    conditions s1 = [("StringEquals", [("aws:SourceArn", ruleArn r1)])] ∧
    conditions s2 = [("StringEquals", [("aws:SourceArn", ruleArn r2)])] ∧
    ruleArn r1 ≠ ruleArn r2.
Proof.
  assert (Hne1 : Sample.eventTypes ≠ []) by discriminate.
  assert (Hne2 : ["customer.subscription.created"] ≠ []) by discriminate.
  assert (Hthis : Sample.stack ++ ["PaymentNotifier"]
                    ≠ Sample.stack ++ ["SubscriptionNotifier"]) by discriminate.
  do 3 (split; [assumption|]).
  destruct (notifiers_do_not_interfere (L := installed)
              Sample.eventBus Sample.eventBus Sample.topic Sample.topic
              Sample.eventTypes ["customer.subscription.created"]
              Sample.messageTemplate Sample.messageTemplate _ _
              Sample.serialized Sample.serialized
              Sample.stack Sample.stack "PaymentNotifier" "SubscriptionNotifier"
              empty Hne1 Hne2 eq_refl eq_refl eq_refl eq_refl Hthis)
    as (r1 & r2 & s1 & s2 & Hr & _ & _ & _ & _ & Hp & Hc1 & Hc2 & Harn).
  exists r1, r2, s1, s2. repeat split; assumption.
Defined.

(** A notifier whose template result cannot be serialized throws inside
    [addTarget], and what follows it in the stack is never set up: then the
    order of two notifiers does show in what is declared. *)
Lemma failed_serialization_stops_the_stack :
  let good := Sample.props in
  let bad := valid_props Sample.eventBus Sample.topic Sample.eventTypes
               Sample.functionTemplate in
  length (new_rules empty
            (two_notifiers Sample.stack "A" bad Sample.stack "B" good empty).2) = 1 ∧
  length (new_rules empty
            (two_notifiers Sample.stack "B" good Sample.stack "A" bad empty).2) = 2.
Proof. split; reflexivity. Qed.

(** X10. The order in which two notifiers are set up shows only in the order
    of what is declared.  When both templates return structures that can be
    serialized, the notifiers set up either way round leave the same rules,
    with the same targets, the same policy statements and the same nodes,
    up to a permutation. *)
Theorem notifiers_commute_up_to_order {L : Library}
    (bus1 bus2 : IEventBus) (topic1 topic2 : ITopic)
    (types1 types2 : list string) (tmpl1 tmpl2 : MessageTemplate)
    (obj1 obj2 : Value) (t1 t2 : Json)
    (scope1 scope2 : Path) (id1 id2 : string) (w : World) :
  types1 ≠ [] →
  types2 ≠ [] →
  tmpl1 EventField = inr obj1 →
  tmpl2 EventField = inr obj2 →
  serialize obj1 = Template t1 →
  serialize obj2 = Template t2 →
  let props1 := valid_props bus1 topic1 types1 tmpl1 in
  let props2 := valid_props bus2 topic2 types2 tmpl2 in
  let forth := (two_notifiers scope1 id1 props1 scope2 id2 props2 w).2 in
  let back := (two_notifiers scope2 id2 props2 scope1 id1 props1 w).2 in
  new_rules w forth ≡ₚ new_rules w back ∧
  new_statements w forth ≡ₚ new_statements w back ∧
  new_nodes w forth ≡ₚ new_nodes w back.
Proof.
  intros Hne1 Hne2 Hobj1 Hobj2 Ht1 Ht2 props1 props2 forth back.
  subst props1 props2 forth back.
  unfold two_notifiers, bind, new_rules, new_statements, new_nodes.
  rewrite (run_valid_bound scope1 id1 w bus1 topic1 types1 tmpl1 obj1 t1) by done.
  rewrite (run_valid_bound scope2 id2 _ bus2 topic2 types2 tmpl2 obj2 t2) by done.
  rewrite (run_valid_bound scope2 id2 w bus2 topic2 types2 tmpl2 obj2 t2) by done.
  rewrite (run_valid_bound scope1 id1 _ bus1 topic1 types1 tmpl1 obj1 t1) by done.
  cbn. rewrite <- !app_assoc, !drop_app_length. cbn.
  split; [apply perm_swap|]. split; [apply (Permutation_app_comm [_; _] [_; _])|].
  destruct (decide (topic1 = topic2)) as [<- | Hdiff].
  - rewrite !(policy_nodes_handed (_ ++ _) topic1 (open_grant topic1))
      by (apply elem_of_app; right; apply elem_of_cons; right;
          apply list_elem_of_here).
    set (p := policy_nodes (topic_policies w) topic1).
    change (([scope1 ++ [id1]; scope1 ++ [id1; "StripeEventRule"];
              scope1 ++ [id1; "StripeEventRule"; "Resource"]] ++ p) ++
            [scope2 ++ [id2]; scope2 ++ [id2; "StripeEventRule"];
             scope2 ++ [id2; "StripeEventRule"; "Resource"]]
            ≡ₚ ([scope2 ++ [id2]; scope2 ++ [id2; "StripeEventRule"];
                 scope2 ++ [id2; "StripeEventRule"; "Resource"]] ++ p) ++
               [scope1 ++ [id1]; scope1 ++ [id1; "StripeEventRule"];
                scope1 ++ [id1; "StripeEventRule"; "Resource"]]).
    rewrite <- !app_assoc.
    rewrite (Permutation_app_comm p [scope2 ++ [id2]; _; _]).
    rewrite (Permutation_app_comm p [scope1 ++ [id1]; _; _]).
    rewrite !app_assoc. f_equiv. apply Permutation_app_comm.
  - rewrite (policy_nodes_other (topic_policies w) _ topic2 topic1);
      [|done|by intros ts [-> | ->%list_elem_of_singleton]%elem_of_cons].
    rewrite (policy_nodes_other (topic_policies w) _ topic1 topic2);
      [|done|by intros ts [-> | ->%list_elem_of_singleton]%elem_of_cons].
    set (p1 := policy_nodes (topic_policies w) topic1).
    set (p2 := policy_nodes (topic_policies w) topic2).
    change (([scope1 ++ [id1]; scope1 ++ [id1; "StripeEventRule"];
              scope1 ++ [id1; "StripeEventRule"; "Resource"]] ++ p1) ++
            ([scope2 ++ [id2]; scope2 ++ [id2; "StripeEventRule"];
              scope2 ++ [id2; "StripeEventRule"; "Resource"]] ++ p2)
            ≡ₚ ([scope2 ++ [id2]; scope2 ++ [id2; "StripeEventRule"];
                 scope2 ++ [id2; "StripeEventRule"; "Resource"]] ++ p2) ++
               ([scope1 ++ [id1]; scope1 ++ [id1; "StripeEventRule"];
                 scope1 ++ [id1; "StripeEventRule"; "Resource"]] ++ p1)).
    apply Permutation_app_comm.
Qed.

Lemma notifiers_commute_up_to_order_witness :
  Sample.eventTypes ≠ [] ∧
  ["customer.subscription.created"] ≠ [] ∧
  new_rules empty
    (two_notifiers
       Sample.stack "PaymentNotifier" Sample.props
       Sample.stack "SubscriptionNotifier"
       (valid_props Sample.eventBus Sample.topic
          ["customer.subscription.created"] Sample.messageTemplate) empty).2
  ≡ₚ new_rules empty
       (two_notifiers
          Sample.stack "SubscriptionNotifier"
          (valid_props Sample.eventBus Sample.topic
             ["customer.subscription.created"] Sample.messageTemplate)
          Sample.stack "PaymentNotifier" Sample.props empty).2.
Proof.
  assert (Hne1 : Sample.eventTypes ≠ []) by discriminate.
  assert (Hne2 : ["customer.subscription.created"] ≠ []) by discriminate.
  do 2 (split; [assumption|]).
  exact (proj1 (notifiers_commute_up_to_order (L := installed)
                  Sample.eventBus Sample.eventBus Sample.topic Sample.topic
                  Sample.eventTypes ["customer.subscription.created"]
                  Sample.messageTemplate Sample.messageTemplate _ _
                  Sample.serialized Sample.serialized
                  Sample.stack Sample.stack "PaymentNotifier" "SubscriptionNotifier"
                  empty Hne1 Hne2 eq_refl eq_refl eq_refl eq_refl)).
Defined.
